(** * adguardhome-exporter: a shallow embedding of [main.go]

    The exporter polls [http://{endpoint}/control/stats], decodes the JSON
    body into a [Response], and sends one Prometheus sample per field on the
    collector's channel.  This file embeds the program's data and functions
    (same names as in the Go source) and proves what each scrape emits and
    how the start-up configuration is resolved.

    Conventions.
    - A Go [string] or [[]byte] is a [string] (a list of 8-bit [ascii]).
    - A Go [int] is a [Z]; the decoder only stores values of the 64-bit
      range (the width of [int] on 64-bit targets).
    - A Go [float64] is a [spec_float] of the binary64 format.
    - A Go [map[string]T] is a [gmap string T]; ranging over it visits
      [map_to_list] (Go leaves the order unspecified).
    - A Go [error] is its message; [nil] is [None]. *)

From Stdlib Require Import ZArith NArith Ascii String List Lia Bool SpecFloat.
From stdpp Require Import base option list gmap strings fin_maps.

Local Open Scope string_scope.
Local Open Scope list_scope.
Local Open Scope Z_scope.

(** ** float64 *)

Module Float64.

Definition prec : Z := 53.
Definition emax : Z := 1024.

Definition float64 : Type := spec_float.

Definition zero : float64 := S754_zero false.

(** The conversion [float64(n)] of an integer: round to nearest, ties to
    even. *)
Definition of_int (n : Z) : float64 := binary_normalize prec emax n 0 false.

(** [m * 10^e] rounded to nearest even; [None] when the result overflows
    (strconv.ParseFloat reports ErrRange). *)
Definition of_decimal (neg : bool) (m : N) (e : Z) : option float64 :=
  match m with
  | N0 => Some (S754_zero neg)
  | Npos p =>
      let r :=
        match e with
        | Zneg k => SFdiv prec emax (S754_finite neg p 0)
                      (S754_finite false (Pos.pow 10 k) 0)
        | _ => binary_round prec emax neg (p * Z.to_pos (10 ^ e))%positive 0
        end in
      match r with
      | S754_infinity _ | S754_nan => None
      | _ => Some r
      end
  end.


End Float64.

Abbreviation float64 := Float64.float64.

(** ** encoding/base64 *)

Module base64.

Definition encodeStd : string :=
  "ABCDEFGHIJKLMNOPQRSTUVWXYZabcdefghijklmnopqrstuvwxyz0123456789+/".

Definition digit (val : N) (shift : N) : ascii :=
  match String.get (N.to_nat (N.land (N.shiftr val shift) 63)) encodeStd with
  | Some c => c
  | None => "="%char
  end.

Definition pad : ascii := "="%char.

(** [StdEncoding.EncodeToString]: three source bytes give four digits;
    a remainder of one or two bytes is padded with [=]. *)
Fixpoint EncodeToString (src : string) : string :=
  match src with
  | String a (String b (String c rest)) =>
      let val := N.lor (N.lor (N.shiftl (N_of_ascii a) 16)
                              (N.shiftl (N_of_ascii b) 8)) (N_of_ascii c) in
      String (digit val 18) (String (digit val 12)
        (String (digit val 6) (String (digit val 0) (EncodeToString rest))))
  | String a (String b EmptyString) =>
      let val := N.lor (N.shiftl (N_of_ascii a) 16)
                       (N.shiftl (N_of_ascii b) 8) in
      String (digit val 18) (String (digit val 12)
        (String (digit val 6) (String pad EmptyString)))
  | String a EmptyString =>
      let val := N.shiftl (N_of_ascii a) 16 in
      String (digit val 18) (String (digit val 12)
        (String pad (String pad EmptyString)))
  | EmptyString => EmptyString
  end.

End base64.

(** ** The Prometheus client: descriptors and constant metrics *)

Module prometheus.

Record Desc := NewDesc {
  fqName : string;
  help : string;
  variableLabels : list string;
  constLabels : list (string * string)
}.

Definition BuildFQName (namespace subsystem name : string) : string :=
  if String.eqb name "" then ""
  else if negb (String.eqb namespace "") && negb (String.eqb subsystem "")
    then namespace +:+ "_" +:+ subsystem +:+ "_" +:+ name
  else if negb (String.eqb namespace "") then namespace +:+ "_" +:+ name
  else if negb (String.eqb subsystem "") then subsystem +:+ "_" +:+ name
  else name.

Inductive ValueType := CounterValue | GaugeValue | UntypedValue.

Record Metric := mkMetric {
  desc : Desc;
  valType : ValueType;
  value : float64;
  labelValues : list string
}.

(** [NewConstMetric] refuses a number of label values that differs from
    the descriptor's variable labels. *)
Definition NewConstMetric (d : Desc) (vt : ValueType) (v : float64)
    (lvs : list string) : Metric + string :=
  if Nat.eqb (length lvs) (length (variableLabels d))
  then inl (mkMetric d vt v lvs)
  else inr "inconsistent label cardinality".

End prometheus.

(** ** encoding/json, part 1: the scanner

    [checkValid] feeds the body to a byte-at-a-time state machine with a
    stack of parse states; the machine below is that scanner, extended
    with the value it has read so far. *)

Module json.

#[warnings="-register-all"]
Inductive Value :=
| Null
| Bool (b : bool)
| Number (lit : string)
| Str (s : string)
| Array (elems : list Value)
| Object (members : list (string * Value)).

Definition code (c : ascii) : N := N_of_ascii c.
Definition eqc (c d : ascii) : bool := Ascii.eqb c d.

(** The double quote. *)
Definition dquote : ascii := "034"%char.
Definition between (lo hi : N) (c : ascii) : bool :=
  ((lo <=? code c) && (code c <=? hi))%N.

Definition isSpace (c : ascii) : bool :=
  ((code c =? 32) || (code c =? 9) || (code c =? 13) || (code c =? 10))%N.
Definition isDigit : ascii -> bool := between 48 57.
Definition isDigit19 : ascii -> bool := between 49 57.
Definition isHex (c : ascii) : bool :=
  isDigit c || between 97 102 c || between 65 70 c.

Definition hexval (c : ascii) : N :=
  if isDigit c then code c - 48
  else if between 97 102 c then code c - 87
  else code c - 55.

(** *** Strings: escapes and coercion to well-formed UTF-8 *)

Definition byte (n : N) : ascii := ascii_of_N (n mod 256).

Definition RuneError : N := 65533.

Definition EncodeRune (r : N) : list ascii :=
  let r := if (((55296 <=? r) && (r <=? 57343)) || (1114111 <? r))%N
           then RuneError else r in
  if (r <? 128)%N then [byte r]
  else if (r <? 2048)%N then
    [byte (192 + N.shiftr r 6); byte (128 + N.land r 63)]
  else if (r <? 65536)%N then
    [byte (224 + N.shiftr r 12); byte (128 + N.land (N.shiftr r 6) 63);
     byte (128 + N.land r 63)]
  else
    [byte (240 + N.shiftr r 18); byte (128 + N.land (N.shiftr r 12) 63);
     byte (128 + N.land (N.shiftr r 6) 63); byte (128 + N.land r 63)].

Definition u4 (a b c d : ascii) : N :=
  (hexval a * 4096 + hexval b * 256 + hexval c * 16 + hexval d)%N.

Definition isSurrogate (r : N) : bool := ((55296 <=? r) && (r <? 57344))%N.

(** [utf16.DecodeRune]: a high then a low surrogate give one rune. *)
Definition utf16_DecodeRune (r1 r2 : N) : N :=
  if ((55296 <=? r1) && (r1 <? 56320) && (56320 <=? r2) && (r2 <? 57344))%N
  then ((r1 - 55296) * 1024 + (r2 - 56320) + 65536)%N
  else RuneError.

Definition cont : ascii -> bool := between 128 191.

(** Width of the well-formed UTF-8 sequence that starts the list; 1 for
    an ASCII byte, 0 when the bytes are not well-formed. *)
Definition utf8_width (b0 : ascii) (rest : list ascii) : nat :=
  if (code b0 <? 128)%N then 1%nat
  else match rest with
  | b1 :: rest1 =>
      if between 194 223 b0 && cont b1 then 2%nat
      else match rest1 with
      | b2 :: rest2 =>
          if ((eqc b0 (byte 224) && between 160 191 b1)
              || ((between 225 236 b0 || between 238 239 b0) && cont b1)
              || (eqc b0 (byte 237) && between 128 159 b1)) && cont b2
          then 3%nat
          else match rest2 with
          | b3 :: _ =>
              if ((eqc b0 (byte 240) && between 144 191 b1)
                  || (between 241 243 b0 && cont b1)
                  || (eqc b0 (byte 244) && between 128 143 b1))
                 && cont b2 && cont b3
              then 4%nat else 0%nat
          | [] => 0%nat
          end
      | [] => 0%nat
      end
  | [] => 0%nat
  end.

Definition escaped (c : ascii) : ascii :=
  if eqc c "b" then byte 8 else if eqc c "f" then byte 12
  else if eqc c "n" then byte 10 else if eqc c "r" then byte 13
  else if eqc c "t" then byte 9 else c.

(** [unquote] on the bytes between the quotes (the scanner has checked
    the escapes): escapes are replaced, a [\u] surrogate pair gives one
    rune, and bytes that are not UTF-8 become U+FFFD. *)
Fixpoint unquote (s : list ascii) : list ascii :=
  match s with
  | [] => []
  | c :: t =>
      if eqc c "\" then
        match t with
        | e :: t1 =>
            if eqc e "u" then
              match t1 with
              | a :: b :: c1 :: d :: t2 =>
                  let rr := u4 a b c1 d in
                  if isSurrogate rr then
                    match t2 with
                    | bs :: u :: a' :: b' :: c' :: d' :: t3 =>
                        let dec := utf16_DecodeRune rr (u4 a' b' c' d') in
                        if eqc bs "\" && eqc u "u" && isHex a' && isHex b'
                           && isHex c' && isHex d'
                           && negb (dec =? RuneError)%N
                        then EncodeRune dec ++ unquote t3
                        else EncodeRune RuneError ++ unquote t2
                    | _ => EncodeRune RuneError ++ unquote t2
                    end
                  else EncodeRune rr ++ unquote t2
              | _ => []
              end
            else escaped e :: unquote t1
        | [] => []
        end
      else
        match utf8_width c t with
        | 1%nat => c :: unquote t
        | 2%nat => match t with
                   | b1 :: t1 => c :: b1 :: unquote t1
                   | _ => []
                   end
        | 3%nat => match t with
                   | b1 :: b2 :: t2 => c :: b1 :: b2 :: unquote t2
                   | _ => []
                   end
        | 4%nat => match t with
                   | b1 :: b2 :: b3 :: t3 => c :: b1 :: b2 :: b3 :: unquote t3
                   | _ => []
                   end
        | _ => EncodeRune RuneError ++ unquote t
        end
  end.

(** *** The scanner's states *)

Inductive Step :=
| stateBeginValueOrEmpty | stateBeginValue
| stateBeginStringOrEmpty | stateBeginString
| stateEndValue | stateEndTop
| stateInString | stateInStringEsc
| stateInStringEscU | stateInStringEscU1
| stateInStringEscU12 | stateInStringEscU123
| stateNeg | state1 | state0 | stateDot | stateDot0
| stateE | stateESign | stateE0
| stateT | stateTr | stateTru
| stateF | stateFa | stateFal | stateFals
| stateN | stateNu | stateNul.

Inductive ParseState := parseObjectKey | parseObjectValue | parseArrayValue.

(** The value under construction for each open bracket. *)
Inductive Builder :=
| BObj (acc : list (string * Value)) (key : option string)
| BArr (acc : list Value).

Record scanner := mkScanner {
  step : Step;
  parseState : list ParseState;
  build : list Builder;
  buf : list ascii;            (* the literal being read, reversed *)
  top : option Value           (* the finished top-level value *)
}.

Definition maxNestingDepth : N := 10000.

Definition reset : scanner := mkScanner stateBeginValue [] [] [] None.

Definition goto (st : Step) (s : scanner) : scanner :=
  mkScanner st (parseState s) (build s) (buf s) (top s).
Definition push (c : ascii) (s : scanner) : scanner :=
  mkScanner (step s) (parseState s) (build s) (c :: buf s) (top s).
Definition start (c : list ascii) (s : scanner) : scanner :=
  mkScanner (step s) (parseState s) (build s) c (top s).
Definition literal (s : scanner) : string :=
  string_of_list_ascii (rev (buf s)).

(** A finished value goes to the innermost open bracket, or is the
    result. *)
Definition emit (v : Value) (s : scanner) : scanner :=
  match build s with
  | [] => mkScanner (step s) (parseState s) [] [] (Some v)
  | BArr acc :: bs =>
      mkScanner (step s) (parseState s) (BArr (v :: acc) :: bs) [] (top s)
  | BObj acc (Some k) :: bs =>
      mkScanner (step s) (parseState s) (BObj ((k, v) :: acc) None :: bs)
        [] (top s)
  | BObj acc None :: bs =>
      match v with
      | Str k =>
          mkScanner (step s) (parseState s) (BObj acc (Some k) :: bs)
            [] (top s)
      | _ => s
      end
  end.

Definition pushParseState (ps : ParseState) (b : Builder) (st : Step)
    (s : scanner) : option scanner :=
  let stack := ps :: parseState s in
  if (N.of_nat (length stack) <=? maxNestingDepth)%N
  then Some (mkScanner st stack (b :: build s) [] (top s))
  else None.

Definition popParseState (s : scanner) : scanner :=
  let rest := tail (parseState s) in
  let st := match rest with [] => stateEndTop | _ => stateEndValue end in
  match build s with
  | BObj acc _ :: bs =>
      emit (Object (rev acc)) (mkScanner st rest bs [] (top s))
  | BArr acc :: bs =>
      emit (Array (rev acc)) (mkScanner st rest bs [] (top s))
  | [] => mkScanner st rest [] [] (top s)
  end.

Definition setTop (ps : ParseState) (s : scanner) : scanner :=
  mkScanner (step s) (ps :: tail (parseState s)) (build s) (buf s) (top s).

Definition doEndTop (c : ascii) (s : scanner) : option scanner :=
  if isSpace c then Some s else None.

Definition doEndValue (c : ascii) (s : scanner) : option scanner :=
  match parseState s with
  | [] => doEndTop c (goto stateEndTop s)
  | ps :: _ =>
      if isSpace c then Some (goto stateEndValue s)
      else match ps with
      | parseObjectKey =>
          if eqc c ":" then Some (goto stateBeginValue (setTop parseObjectValue s))
          else None
      | parseObjectValue =>
          if eqc c "," then Some (goto stateBeginString (setTop parseObjectKey s))
          else if eqc c "}" then Some (popParseState s)
          else None
      | parseArrayValue =>
          if eqc c "," then Some (goto stateBeginValue s)
          else if eqc c "]" then Some (popParseState s)
          else None
      end
  end.

Definition doBeginValue (c : ascii) (s : scanner) : option scanner :=
  if isSpace c then Some s
  else if eqc c "{" then
    pushParseState parseObjectKey (BObj [] None) stateBeginStringOrEmpty s
  else if eqc c "[" then
    pushParseState parseArrayValue (BArr []) stateBeginValueOrEmpty s
  else if eqc c dquote then Some (goto stateInString (start [] s))
  else if eqc c "-" then Some (goto stateNeg (start [c] s))
  else if eqc c "0" then Some (goto state0 (start [c] s))
  else if eqc c "t" then Some (goto stateT s)
  else if eqc c "f" then Some (goto stateF s)
  else if eqc c "n" then Some (goto stateN s)
  else if isDigit19 c then Some (goto state1 (start [c] s))
  else None.

Definition doBeginString (c : ascii) (s : scanner) : option scanner :=
  if isSpace c then Some s
  else if eqc c dquote then Some (goto stateInString (start [] s))
  else None.

Definition endNumber (c : ascii) (s : scanner) : option scanner :=
  doEndValue c (emit (Number (literal s)) s).

Definition doESign (c : ascii) (s : scanner) : option scanner :=
  if isDigit c then Some (goto stateE0 (push c s)) else None.

Definition do0 (c : ascii) (s : scanner) : option scanner :=
  if eqc c "." then Some (goto stateDot (push c s))
  else if eqc c "e" || eqc c "E" then Some (goto stateE (push c s))
  else endNumber c s.

Definition expect (want : ascii) (next : scanner -> scanner) (c : ascii)
    (s : scanner) : option scanner :=
  if eqc c want then Some (next s) else None.

(** One byte. [None] is scanError. *)
Definition scan (s : scanner) (c : ascii) : option scanner :=
  match step s with
  | stateBeginValueOrEmpty =>
      if isSpace c then Some s
      else if eqc c "]" then doEndValue c s
      else doBeginValue c s
  | stateBeginValue => doBeginValue c s
  | stateBeginStringOrEmpty =>
      if isSpace c then Some s
      else if eqc c "}" then doEndValue c (setTop parseObjectValue s)
      else doBeginString c s
  | stateBeginString => doBeginString c s
  | stateEndValue => doEndValue c s
  | stateEndTop => doEndTop c s
  | stateInString =>
      if eqc c dquote then
        Some (goto stateEndValue
                (emit (Str (string_of_list_ascii (unquote (rev (buf s))))) s))
      else if eqc c "\" then Some (goto stateInStringEsc (push c s))
      else if (code c <? 32)%N then None
      else Some (push c s)
  | stateInStringEsc =>
      if eqc c "b" || eqc c "f" || eqc c "n" || eqc c "r" || eqc c "t"
         || eqc c "\" || eqc c "/" || eqc c dquote
      then Some (goto stateInString (push c s))
      else if eqc c "u" then Some (goto stateInStringEscU (push c s))
      else None
  | stateInStringEscU =>
      if isHex c then Some (goto stateInStringEscU1 (push c s)) else None
  | stateInStringEscU1 =>
      if isHex c then Some (goto stateInStringEscU12 (push c s)) else None
  | stateInStringEscU12 =>
      if isHex c then Some (goto stateInStringEscU123 (push c s)) else None
  | stateInStringEscU123 =>
      if isHex c then Some (goto stateInString (push c s)) else None
  | stateNeg =>
      if eqc c "0" then Some (goto state0 (push c s))
      else if isDigit19 c then Some (goto state1 (push c s))
      else None
  | state1 =>
      if isDigit c then Some (goto state1 (push c s)) else do0 c s
  | state0 => do0 c s
  | stateDot =>
      if isDigit c then Some (goto stateDot0 (push c s)) else None
  | stateDot0 =>
      if isDigit c then Some (push c s)
      else if eqc c "e" || eqc c "E" then Some (goto stateE (push c s))
      else endNumber c s
  | stateE =>
      if eqc c "+" || eqc c "-" then Some (goto stateESign (push c s))
      else doESign c s
  | stateESign => doESign c s
  | stateE0 =>
      if isDigit c then Some (push c s) else endNumber c s
  | stateT => expect "r" (goto stateTr) c s
  | stateTr => expect "u" (goto stateTru) c s
  | stateTru =>
      expect "e" (fun s => goto stateEndValue (emit (Bool true) s)) c s
  | stateF => expect "a" (goto stateFa) c s
  | stateFa => expect "l" (goto stateFal) c s
  | stateFal => expect "s" (goto stateFals) c s
  | stateFals =>
      expect "e" (fun s => goto stateEndValue (emit (Bool false) s)) c s
  | stateN => expect "u" (goto stateNu) c s
  | stateNu => expect "l" (goto stateNul) c s
  | stateNul =>
      expect "l" (fun s => goto stateEndValue (emit Null s)) c s
  end.

Fixpoint scanAll (s : scanner) (data : string) : option scanner :=
  match data with
  | EmptyString => Some s
  | String c rest =>
      match scan s c with
      | Some s' => scanAll s' rest
      | None => None
      end
  end.

(** [eof]: a number that ends the input is closed by a final space. *)
Definition eof (s : scanner) : option Value :=
  match step s with
  | stateEndTop => top s
  | _ =>
      match scan s " " with
      | Some s' =>
          match step s' with
          | stateEndTop => top s'
          | _ => None
          end
      | None => None
      end
  end.

(** The value of a body, [None] when [checkValid] reports a syntax
    error. *)
Definition parse (data : string) : option Value :=
  match scanAll reset data with
  | Some s => eof s
  | None => None
  end.

End json.

(** ** strconv: the two conversions the decoder calls on a number literal *)

Module strconv.

(** Reads a run of decimal digits: the number read after [acc], how many
    digits there were, and the rest of the string. *)
Fixpoint digits (s : string) (acc : N) (n : Z) : N * Z * string :=
  match s with
  | String c rest =>
      if json.isDigit c
      then digits rest (acc * 10 + (json.code c - 48))%N (n + 1)
      else (acc, n, s)
  | EmptyString => (acc, n, s)
  end.

Definition sign (s : string) : bool * string :=
  match s with
  | String c rest =>
      if json.eqc c "-" then (true, rest)
      else if json.eqc c "+" then (false, rest)
      else (false, s)
  | EmptyString => (false, s)
  end.

(** [ParseInt(s, 10, 64)] *)
Definition ParseInt (s : string) : option Z :=
  let (neg, s1) := sign s in
  let '(m, n, rest) := digits s1 0 0 in
  if (n =? 0)%Z || negb (String.eqb rest "") then None
  else
    let v := if neg then - Z.of_N m else Z.of_N m in
    if (- 2 ^ 63 <=? v) && (v <? 2 ^ 63) then Some v else None.

(** [ParseFloat(s, 64)] on decimal syntax (the only one a JSON number
    has): the nearest float64, [None] on a syntax or range error. *)
Definition ParseFloat (s : string) : option float64 :=
  let (neg, s1) := sign s in
  let '(m1, n1, s2) := digits s1 0 0 in
  let '(m, nfrac, s3) :=
    match s2 with
    | String c r => if json.eqc c "." then digits r m1 0 else (m1, 0, s2)
    | EmptyString => (m1, 0, s2)
    end in
  if (n1 + nfrac =? 0)%Z then None
  else match s3 with
  | EmptyString => Float64.of_decimal neg m (- nfrac)
  | String c r =>
      if json.eqc c "e" || json.eqc c "E" then
        let (eneg, r1) := sign r in
        let '(ev, en, r2) := digits r1 0 0 in
        if (en =? 0)%Z || negb (String.eqb r2 "") then None
        else Float64.of_decimal neg m
               ((if eneg then - Z.of_N ev else Z.of_N ev) - nfrac)
      else None
  end.

End strconv.

(** ** The program's data *)

Definition error : Type := string.

(** [type Response struct] (main.go, lines 64-71) *)
Record Response := mkResponse {
  UpstreamTime : list (gmap string float64);
  AllDNSQueries : Z;
  BlockedDNSQueries : Z;
  ProcessingTime : float64;
  SafeBrowsing : Z;
  SafeSearch : Z
}.

(** [var res Response]: every field at its zero value. *)
Definition zeroResponse : Response :=
  mkResponse [] 0 0 Float64.zero 0 0.

(** The fields of [Response] and their [json:"..."] tags. *)
Inductive Field :=
| fUpstreamTime | fAllDNSQueries | fBlockedDNSQueries
| fProcessingTime | fSafeBrowsing | fSafeSearch.

Definition tag (f : Field) : string :=
  match f with
  | fUpstreamTime => "top_upstreams_avg_time"
  | fAllDNSQueries => "num_dns_queries"
  | fBlockedDNSQueries => "num_blocked_filtering"
  | fProcessingTime => "avg_processing_time"
  | fSafeBrowsing => "num_replaced_safebrowsing"
  | fSafeSearch => "num_replaced_safesearch"
  end.

Definition fields : list Field :=
  [fUpstreamTime; fAllDNSQueries; fBlockedDNSQueries;
   fProcessingTime; fSafeBrowsing; fSafeSearch].

(** ** encoding/json, part 2: storing a value into a [Response] *)

Module decode.

Import json.

(** [foldName]: ASCII letters go to upper case; the two non-ASCII runes
    whose case fold is an ASCII letter (U+017F to S, U+212A to K) are
    folded too.  Other non-ASCII runes fold to non-ASCII runes and are
    left as they are: they never equal a folded tag. *)
Fixpoint foldName (s : string) : string :=
  match s with
  | EmptyString => EmptyString
  | String c rest =>
      if between 97 122 c then String (byte (code c - 32)) (foldName rest)
      else match rest with
      | String d rest1 =>
          if eqc c (byte 197) && eqc d (byte 191)
          then String "S" (foldName rest1)
          else match rest1 with
          | String e rest2 =>
              if eqc c (byte 226) && eqc d (byte 132) && eqc e (byte 170)
              then String "K" (foldName rest2)
              else String c (foldName rest)
          | EmptyString => String c (foldName rest)
          end
      | EmptyString => String c (foldName rest)
      end
  end.

(** The field a key selects: the exact tag first, else the tag with the
    same folded name. *)
Definition lookupField (key : string) : option Field :=
  match List.find (fun f => String.eqb (tag f) key) fields with
  | Some f => Some f
  | None =>
      List.find (fun f => String.eqb (foldName (tag f)) (foldName key)) fields
  end.

Definition UnmarshalTypeError (value type : string) : error :=
  "json: cannot unmarshal " +:+ value +:+ " into Go value of type " +:+ type.

Definition describe (v : Value) : string :=
  match v with
  | Null => "null"
  | Bool _ => "bool"
  | Number _ => "number"
  | Str _ => "string"
  | Array _ => "array"
  | Object _ => "object"
  end.

(** [saveError] keeps the first error. *)
Definition saveError (saved new : option error) : option error :=
  match saved with
  | Some _ => saved
  | None => new
  end.

(** A value stored into an [int]: the new contents and the error. *)
Definition storeInt (v : Value) (cur : Z) : Z * option error :=
  match v with
  | Null => (cur, None)
  | Number lit =>
      match strconv.ParseInt lit with
      | Some n => (n, None)
      | None => (cur, Some (UnmarshalTypeError ("number " +:+ lit) "int"))
      end
  | _ => (cur, Some (UnmarshalTypeError (describe v) "int"))
  end.

Definition storeFloat (v : Value) (cur : float64) : float64 * option error :=
  match v with
  | Null => (cur, None)
  | Number lit =>
      match strconv.ParseFloat lit with
      | Some f => (f, None)
      | None => (cur, Some (UnmarshalTypeError ("number " +:+ lit) "float64"))
      end
  | _ => (cur, Some (UnmarshalTypeError (describe v) "float64"))
  end.

(** An object stored into a [map[string]float64]: every member is
    decoded into a zero element and written under its key, also when the
    member's value was refused. *)
Definition storeMember (acc : gmap string float64 * option error)
    (kv : string * Value) : gmap string float64 * option error :=
  let (f, err) := storeFloat (snd kv) Float64.zero in
  (<[fst kv := f]> (fst acc), saveError (snd acc) err).

Definition storeMap (v : Value) (cur : gmap string float64)
    : gmap string float64 * option error :=
  match v with
  | Null => (∅, None)
  | Object members => fold_left storeMember members (cur, None)
  | _ => (cur, Some (UnmarshalTypeError (describe v) "map[string]float64"))
  end.

(** An array stored into a [[]map[string]float64]: element [i] is
    decoded into the slice's element [i] when there is one, else into a
    nil map; the slice ends with the array's length. *)
Fixpoint storeElems (vs : list Value) (cur : list (gmap string float64))
    : list (gmap string float64) * option error :=
  match vs with
  | [] => ([], None)
  | v :: vs' =>
      let (m, err) := storeMap v (hd ∅ cur) in
      let (ms, err') := storeElems vs' (tl cur) in
      (m :: ms, saveError err err')
  end.

Definition storeSlice (v : Value) (cur : list (gmap string float64))
    : list (gmap string float64) * option error :=
  match v with
  | Null => ([], None)
  | Array vs => storeElems vs cur
  | _ => (cur, Some (UnmarshalTypeError (describe v)
                       "[]map[string]float64"))
  end.

Definition storeField (f : Field) (v : Value) (res : Response)
    : Response * option error :=
  match f with
  | fUpstreamTime =>
      let (x, err) := storeSlice v (UpstreamTime res) in
      (mkResponse x (AllDNSQueries res) (BlockedDNSQueries res)
         (ProcessingTime res) (SafeBrowsing res) (SafeSearch res), err)
  | fAllDNSQueries =>
      let (x, err) := storeInt v (AllDNSQueries res) in
      (mkResponse (UpstreamTime res) x (BlockedDNSQueries res)
         (ProcessingTime res) (SafeBrowsing res) (SafeSearch res), err)
  | fBlockedDNSQueries =>
      let (x, err) := storeInt v (BlockedDNSQueries res) in
      (mkResponse (UpstreamTime res) (AllDNSQueries res) x
         (ProcessingTime res) (SafeBrowsing res) (SafeSearch res), err)
  | fProcessingTime =>
      let (x, err) := storeFloat v (ProcessingTime res) in
      (mkResponse (UpstreamTime res) (AllDNSQueries res)
         (BlockedDNSQueries res) x (SafeBrowsing res) (SafeSearch res), err)
  | fSafeBrowsing =>
      let (x, err) := storeInt v (SafeBrowsing res) in
      (mkResponse (UpstreamTime res) (AllDNSQueries res)
         (BlockedDNSQueries res) (ProcessingTime res) x (SafeSearch res), err)
  | fSafeSearch =>
      let (x, err) := storeInt v (SafeSearch res) in
      (mkResponse (UpstreamTime res) (AllDNSQueries res)
         (BlockedDNSQueries res) (ProcessingTime res) (SafeBrowsing res) x,
       err)
  end.

(** One member of the top-level object: a key that selects no field is
    skipped. *)
Definition storeKey (acc : Response * option error) (kv : string * Value)
    : Response * option error :=
  match lookupField (fst kv) with
  | Some f =>
      let (res, err) := storeField f (snd kv) (fst acc) in
      (res, saveError (snd acc) err)
  | None => acc
  end.

Definition storeStruct (v : Value) (res : Response)
    : Response * option error :=
  match v with
  | Null => (res, None)
  | Object members => fold_left storeKey members (res, None)
  | _ => (res, Some (UnmarshalTypeError (describe v) "main.Response"))
  end.

Definition SyntaxError : error := "json: syntax error".

(** [json.Unmarshal(body, &res)]: a body that is not valid JSON leaves
    [res] untouched; a valid one is stored field by field and the first
    type error, if any, is returned once everything has been stored. *)
Definition Unmarshal (data : string) (res : Response)
    : Response * option error :=
  match parse data with
  | None => (res, Some SyntaxError)
  | Some v => storeStruct v res
  end.

End decode.

(** ** net/http, as far as the exporter uses it *)

Module http.

Definition MethodGet : string := "GET".

Record Request := mkRequest {
  Method : string;
  URL : string;
  Header : gmap string (list string)
}.

(** A response body: the bytes [io.ReadAll] collects and the error, if
    any, that ends the read. *)
Record Body := mkBody {
  data : string;
  readErr : option error
}.

(** [url.Parse] starts by refusing a URL that holds an ASCII control
    byte. *)
Definition containsCTLByte (s : string) : bool :=
  existsb (fun c => (json.code c <? 32)%N || (json.code c =? 127)%N)
          (list_ascii_of_string s).

(** The exporter's surroundings: the error [url.Parse] has for a URL
    ([None] when it parses), which is an error at least for the URLs with
    a control byte, and what [client.Do] returns for a request. *)
Record Upstream := mkUpstream {
  urlError : string -> option error;
  Do : Request -> Body + error;
  urlError_CTL :
    forall url, containsCTLByte url = true -> urlError url <> None
}.

(** [http.NewRequest(method, url, nil)] *)
Definition NewRequest (net : Upstream) (method url : string)
    : Request + error :=
  match urlError net url with
  | Some err => inr err
  | None => inl (mkRequest method url ∅)
  end.

(** [req.Header.Set(key, value)], for a key in canonical form. *)
Definition Header_Set (req : Request) (key value : string) : Request :=
  mkRequest (Method req) (URL req) (<[key := [value]]> (Header req)).

(** [io.ReadAll(response.Body)] *)
Definition ReadAll (b : Body) : string * option error :=
  (data b, readErr b).

End http.

(** ** Effects: the metric channel, standard output, requests, panics *)

Record state := mkState {
  ch : list prometheus.Metric;        (* samples sent on the channel *)
  stdout : string;
  sent : list http.Request            (* requests handed to client.Do *)
}.

Definition initial : state := mkState [] "" [].

Inductive result (A : Type) :=
| Done (a : A)
| Panicked (msg : string).
Arguments Done {A} a.
Arguments Panicked {A} msg.

Definition Go (A : Type) : Type := state -> result A * state.

Definition ret {A} (a : A) : Go A := fun s => (Done a, s).

Definition bind {A B} (c : Go A) (k : A -> Go B) : Go B :=
  fun s =>
    match c s with
    | (Done a, s') => k a s'
    | (Panicked msg, s') => (Panicked msg, s')
    end.

Declare Scope go_scope.
Delimit Scope go_scope with go.
Notation "x <- c ;; k" := (bind c (fun x => k))
  (at level 100, c at next level, right associativity) : go_scope.
Notation "c ;; k" := (bind c (fun _ => k))
  (at level 100, right associativity) : go_scope.
Local Open Scope go_scope.

Definition panic {A} (msg : string) : Go A := fun s => (Panicked msg, s).

(** [ch <- m] *)
Definition send (m : prometheus.Metric) : Go unit :=
  fun s => (Done tt, mkState (ch s ++ [m]) (stdout s) (sent s)).

(** [fmt.Printf] *)
Definition Printf (text : string) : Go unit :=
  fun s => (Done tt, mkState (ch s) (stdout s +:+ text) (sent s)).

(** [client.Do(req)] *)
Definition client_Do (net : http.Upstream) (req : http.Request)
    : Go (http.Body + error) :=
  fun s => (Done (http.Do net req), mkState (ch s) (stdout s) (sent s ++ [req])).

Definition MustNewConstMetric (d : prometheus.Desc)
    (vt : prometheus.ValueType) (v : float64) (lvs : list string)
    : Go prometheus.Metric :=
  match prometheus.NewConstMetric d vt v lvs with
  | inl m => ret m
  | inr err => panic err
  end.

(** [for _, x := range l { body }] *)
Fixpoint forRange {A} (l : list A) (body : A -> Go unit) : Go unit :=
  match l with
  | [] => ret tt
  | x :: l' => body x ;; forRange l' body
  end.

(** ** The exporter (main.go, lines 17-156) *)

Definition namespace : string := "adguardhome".

Definition up : prometheus.Desc :=
  prometheus.NewDesc (prometheus.BuildFQName namespace "" "up")
    "Exporter status." [] [].
Definition upstreamTime : prometheus.Desc :=
  prometheus.NewDesc (prometheus.BuildFQName namespace "" "upstream_responses")
    "Upstreams average response time (in seconds)." ["address"] [].
Definition dnsQueries : prometheus.Desc :=
  prometheus.NewDesc (prometheus.BuildFQName namespace "" "dns_queries")
    "Total number of DNS queries." [] [].
Definition blockedDNSqueries : prometheus.Desc :=
  prometheus.NewDesc (prometheus.BuildFQName namespace "" "blocked_dns_queries")
    "Total number of blocked DNS queries." [] [].
Definition processingTime : prometheus.Desc :=
  prometheus.NewDesc (prometheus.BuildFQName namespace "" "processing_time")
    "Average DNS query processing time (in seconds)." [] [].
Definition safeBrowsing : prometheus.Desc :=
  prometheus.NewDesc (prometheus.BuildFQName namespace "" "blocked_safe_browsing")
    "Blocked requests via Safe Browsing." [] [].
Definition safeSearch : prometheus.Desc :=
  prometheus.NewDesc (prometheus.BuildFQName namespace "" "blocked_safe_search")
    "Blocked requests via Safe Search." [] [].

Record Exporter := mkExporter {
  Endpoint : string;
  Username : string;
  Password : string
}.

Definition NewExporter (endpoint username password : string) : Exporter :=
  mkExporter endpoint username password.


Import prometheus.

(** The part of [CollectFromAPI] after [json.Unmarshal] (lines 131-155):
    one sample per key of every map of [res.UpstreamTime], then the five
    fixed samples. *)
Definition emitResponse (res : Response) : Go (option error) :=
  forRange (UpstreamTime res) (fun i =>
    forRange (map_to_list i) (fun kv =>
      m <- MustNewConstMetric upstreamTime GaugeValue (snd kv) [fst kv] ;;
      send m)) ;;
  m <- MustNewConstMetric dnsQueries GaugeValue
         (Float64.of_int (AllDNSQueries res)) [] ;;
  send m ;;
  m <- MustNewConstMetric blockedDNSqueries GaugeValue
         (Float64.of_int (BlockedDNSQueries res)) [] ;;
  send m ;;
  m <- MustNewConstMetric processingTime GaugeValue (ProcessingTime res) [] ;;
  send m ;;
  m <- MustNewConstMetric safeBrowsing GaugeValue
         (Float64.of_int (SafeBrowsing res)) [] ;;
  send m ;;
  m <- MustNewConstMetric safeSearch GaugeValue
         (Float64.of_int (SafeSearch res)) [] ;;
  send m ;;
  ret None.

Section Scrape.

Variable net : http.Upstream.

Definition CollectFromAPI (e : Exporter) : Go (option error) :=
  match http.NewRequest net http.MethodGet
          ("http://" +:+ Endpoint e +:+ "/control/stats") with
  | inr err => ret (Some err)
  | inl req =>
      let header :=
        base64.EncodeToString (Username e +:+ ":" +:+ Password e) in
      let req := http.Header_Set req "Authorization" ("Basic " +:+ header) in
      response <- client_Do net req ;;
      match response with
      | inr err => ret (Some err)
      | inl response =>
          match http.ReadAll response with
          | (_, Some err) => ret (Some err)
          | (body, None) =>
              (* the error of Unmarshal is assigned and never read *)
              let (res, err) := decode.Unmarshal body zeroResponse in
              emitResponse res
          end
      end
  end.

Definition Collect (e : Exporter) : Go unit :=
  err <- CollectFromAPI e ;;
  match err with
  | Some err =>
      m <- MustNewConstMetric up GaugeValue (Float64.of_int 0) [] ;;
      send m ;;
      Printf ("ERROR: " +:+ err)
  | None => ret tt
  end ;;
  m <- MustNewConstMetric up GaugeValue (Float64.of_int 1) [] ;;
  send m.

End Scrape.

(** ** Start-up configuration (main.go, lines 158-187) *)

(** The five string variables that [flag.String] allocates; [main] holds
    a pointer to each. *)
Inductive ptr := endpoint | username | password | address | path.

#[global] Instance ptr_eq_dec : EqDecision ptr.
Proof. solve_decision. Defined.

Record Vars := mkVars {
  v_endpoint : string;
  v_username : string;
  v_password : string;
  v_address : string;
  v_path : string
}.

(** [*p] *)
Definition deref (p : ptr) (vs : Vars) : string :=
  match p with
  | endpoint => v_endpoint vs
  | username => v_username vs
  | password => v_password vs
  | address => v_address vs
  | path => v_path vs
  end.

(** [*p = x] *)
Definition assign (p : ptr) (x : string) (vs : Vars) : Vars :=
  match p with
  | endpoint => mkVars x (v_username vs) (v_password vs) (v_address vs) (v_path vs)
  | username => mkVars (v_endpoint vs) x (v_password vs) (v_address vs) (v_path vs)
  | password => mkVars (v_endpoint vs) (v_username vs) x (v_address vs) (v_path vs)
  | address => mkVars (v_endpoint vs) (v_username vs) (v_password vs) x (v_path vs)
  | path => mkVars (v_endpoint vs) (v_username vs) (v_password vs) (v_address vs) x
  end.

Module flag.

(** The command line's flag set: the variables behind the flags and the
    names of the flags that were set while parsing ([f.actual]). *)
Record FlagSet := mkFlagSet {
  vars : Vars;
  actual : list string
}.

(** The flags [main] defines, by name ([f.formal]). *)
Definition formal (name : string) : option ptr :=
  if String.eqb name "endpoint" then Some endpoint
  else if String.eqb name "username" then Some username
  else if String.eqb name "password" then Some password
  else if String.eqb name "address" then Some address
  else if String.eqb name "path" then Some path
  else None.

Definition name (p : ptr) : string :=
  match p with
  | endpoint => "endpoint"
  | username => "username"
  | password => "password"
  | address => "address"
  | path => "path"
  end.

(** The default values given to [flag.String]. *)
Definition defaults : Vars := mkVars "" "" "" ":8000" "/metrics".

Inductive outcome :=
| Parsed (f : FlagSet) (rest : list string)
| Exit (code : Z).

(** Splits [name=value] at the first [=]. *)
Fixpoint splitEq (s : string) : string * option string :=
  match s with
  | EmptyString => (EmptyString, None)
  | String c rest =>
      if json.eqc c "=" then (EmptyString, Some rest)
      else let (n, v) := splitEq rest in (String c n, v)
  end.

Definition set (p : ptr) (flagName value : string) (f : FlagSet) : FlagSet :=
  mkFlagSet (assign p value (vars f)) (flagName :: actual f).

Definition startsWith (c : ascii) (s : string) : bool :=
  match s with
  | String d _ => json.eqc c d
  | EmptyString => false
  end.

(** What [parseOne] finds in the first argument. *)
Inductive parsed :=
| NotAFlag                      (* shorter than two bytes, or no leading [-] *)
| Terminator                    (* [--] *)
| BadSyntax                     (* nothing, [-] or [=] after the dashes *)
| Help                          (* [-h] or [-help], not defined here *)
| NotDefined
| Flag (p : ptr) (nm : string) (value : option string).

Definition parseArg (s : string) : parsed :=
  if (String.length s <? 2)%nat || negb (startsWith "-" s) then NotAFlag
  else
    let afterOne := String.substring 1 (String.length s - 1) s in
    if String.eqb s "--" then Terminator
    else
      let nm := if startsWith "-" afterOne
                then String.substring 2 (String.length s - 2) s
                else afterOne in
      if String.eqb nm "" || startsWith "-" nm || startsWith "=" nm
      then BadSyntax
      else
        let (nm, value) := splitEq nm in
        match formal nm with
        | None =>
            if String.eqb nm "help" || String.eqb nm "h"
            then Help else NotDefined
        | Some p => Flag p nm value
        end.

(** [flag.Parse()] with the [ExitOnError] policy of the command line:
    [parseOne] repeated until the first argument that is not a flag.  A
    flag without [=value] takes the next argument as its value. *)
Fixpoint Parse (args : list string) (f : FlagSet) : outcome :=
  match args with
  | [] => Parsed f []
  | s :: rest =>
      match parseArg s with
      | NotAFlag => Parsed f args
      | Terminator => Parsed f rest
      | BadSyntax => Exit 2
      | Help => Exit 0
      | NotDefined => Exit 2
      | Flag p nm (Some v) => Parse rest (set p nm v f)
      | Flag p nm None =>
          match rest with
          | v :: rest' => Parse rest' (set p nm v f)
          | [] => Exit 2
          end
      end
  end.

End flag.

(** [os.Getenv]: the empty string for a variable that is not set. *)
Definition Getenv (environ : gmap string string) (key : string) : string :=
  default "" (environ !! key).

(** The [config] map of [main]: environment key to variable. *)
Definition config : gmap string ptr :=
  {[ "ADGUARD_ENDPOINT" := endpoint;
     "ADGUARD_USERNAME" := username;
     "ADGUARD_PASSWORD" := password;
     "ADGUARD_ADDRESS" := address;
     "ADGUARD_PATH" := path ]}.

Definition envKey (p : ptr) : string :=
  match p with
  | endpoint => "ADGUARD_ENDPOINT"
  | username => "ADGUARD_USERNAME"
  | password => "ADGUARD_PASSWORD"
  | address => "ADGUARD_ADDRESS"
  | path => "ADGUARD_PATH"
  end.

(** The body of [for key, value := range config]. *)
Definition checkEnv (environ : gmap string string) (vs : Vars)
    (kv : string * ptr) : Vars :=
  let envValue := Getenv environ (fst kv) in
  if String.eqb envValue "" then vs else assign (snd kv) envValue vs.

(** What [main] has when it starts to serve: the exporter it registers,
    the path it handles and the address it listens on. *)
Inductive started :=
| Serve (exporter : Exporter) (servePath listenAddress : string)
| Exited (code : Z).

Definition main (environ : gmap string string) (args : list string) : started :=
  let vs := fold_left (checkEnv environ) (map_to_list config) flag.defaults in
  match flag.Parse args (flag.mkFlagSet vs []) with
  | flag.Exit code => Exited code
  | flag.Parsed f _ =>
      let vs := flag.vars f in
      Serve (NewExporter (deref endpoint vs) (deref username vs)
               (deref password vs))
            (deref path vs) (deref address vs)
  end.

(** The value [main] ends up with for a variable. *)
Definition resolved (p : ptr) (s : started) : option string :=
  match s with
  | Serve e servePath listenAddress =>
      Some match p with
           | endpoint => Endpoint e
           | username => Username e
           | password => Password e
           | address => listenAddress
           | path => servePath
           end
  | Exited _ => None
  end.

(** * Properties *)

(** ** The library models on known values *)

Example base64_admin :
  base64.EncodeToString "admin:secret" = "YWRtaW46c2VjcmV0".
Proof. reflexivity. Qed.

Example base64_padding :
  base64.EncodeToString "a:b" = "YTpi" /\
  base64.EncodeToString "ab:c" = "YWI6Yw==" /\
  base64.EncodeToString "u:pw" = "dTpwdw==" /\
  base64.EncodeToString "ab:cd" = "YWI6Y2Q=".
Proof. repeat split; reflexivity. Qed.

Example float64_of_int_10 :
  Float64.of_int 10 = S754_finite false 5629499534213120 (-49).
Proof. reflexivity. Qed.

(** 0.02 is the float64 0x3F947AE147AE147B and 0.1 is 0x3FB999999999999A;
    1e400 is out of range. *)
Example ParseFloat_values :
  strconv.ParseFloat "0.02" = Some (S754_finite false 5764607523034235 (-58)) /\
  strconv.ParseFloat "0.1" = Some (S754_finite false 7205759403792794 (-56)) /\
  strconv.ParseFloat "-0" = Some (S754_zero true) /\
  strconv.ParseFloat "1e400" = None.
Proof. repeat split; vm_compute; reflexivity. Qed.

Example ParseInt_values :
  strconv.ParseInt "-9223372036854775808" = Some (-9223372036854775808) /\
  strconv.ParseInt "9223372036854775808" = None /\
  strconv.ParseInt "1.0" = None /\
  strconv.ParseInt "1e3" = None.
Proof. repeat split; vm_compute; reflexivity. Qed.

Example parse_values :
  json.parse "[1,-2.5e+3,true,null]"
    = Some (json.Array [json.Number "1"; json.Number "-2.5e+3";
                        json.Bool true; json.Null]) /\
  json.parse " {} " = Some (json.Object []) /\
  json.parse "12" = Some (json.Number "12").
Proof. repeat split; vm_compute; reflexivity. Qed.

Example parse_syntax_errors :
  json.parse "" = None /\ json.parse "not json" = None /\
  json.parse "[1,]" = None /\ json.parse "01" = None /\
  json.parse "{} {}" = None /\ json.parse "[1" = None.
Proof. repeat split; vm_compute; reflexivity. Qed.

(** A key matches its tag whatever the case of its letters. *)
Example lookupField_folds :
  decode.lookupField "num_dns_queries" = Some fAllDNSQueries /\
  decode.lookupField "Num_DNS_Queries" = Some fAllDNSQueries /\
  decode.lookupField "dns_queries" = None.
Proof. repeat split; vm_compute; reflexivity. Qed.

Example Parse_forms :
  flag.Parse ["-path=/a"; "--address"; ":1"; "rest"]
             (flag.mkFlagSet flag.defaults [])
    = flag.Parsed (flag.mkFlagSet (mkVars "" "" "" ":1" "/a")
                                  ["address"; "path"]) ["rest"] /\
  flag.Parse ["-h"] (flag.mkFlagSet flag.defaults []) = flag.Exit 0 /\
  flag.Parse ["-verbose"] (flag.mkFlagSet flag.defaults []) = flag.Exit 2 /\
  flag.Parse ["-path"] (flag.mkFlagSet flag.defaults []) = flag.Exit 2.
Proof. repeat split; vm_compute; reflexivity. Qed.

(** ** What a computation leaves on the channel *)

Definition sample (d : Desc) (v : float64) (lvs : list string) : Metric :=
  mkMetric d GaugeValue v lvs.

(** The samples of the per-upstream loop, in the order of the loop. *)
Definition upstreamSamples (res : Response) : list Metric :=
  flat_map (fun i : gmap string float64 =>
              map (fun kv => sample upstreamTime (snd kv) [fst kv])
                  (map_to_list i))
           (UpstreamTime res).

Definition fixedSamples (res : Response) : list Metric :=
  [ sample dnsQueries (Float64.of_int (AllDNSQueries res)) [];
    sample blockedDNSqueries (Float64.of_int (BlockedDNSQueries res)) [];
    sample processingTime (ProcessingTime res) [];
    sample safeBrowsing (Float64.of_int (SafeBrowsing res)) [];
    sample safeSearch (Float64.of_int (SafeSearch res)) [] ].

Definition upSample (n : Z) : Metric := sample up (Float64.of_int n) [].

(** [s] after the samples [ms] were sent. *)
Definition sending (ms : list Metric) (s : state) : state :=
  mkState (ch s ++ ms) (stdout s) (sent s).

Lemma sending_nil s : sending [] s = s.
Proof. destruct s; unfold sending; simpl. by rewrite app_nil_r. Qed.

Lemma sending_app ms1 ms2 s :
  sending ms2 (sending ms1 s) = sending (ms1 ++ ms2) s.
Proof. unfold sending; simpl. by rewrite app_assoc. Qed.

Lemma forRange_sending {A} (g : A -> list Metric) (body : A -> Go unit) :
  (forall x s, body x s = (Done tt, sending (g x) s)) ->
  forall l s, forRange l body s = (Done tt, sending (flat_map g l) s).
Proof.
  intros Hbody l. induction l as [|x l IH]; intros s; simpl.
  - by rewrite sending_nil.
  - unfold bind. rewrite Hbody, IH. by rewrite sending_app.
Qed.

Lemma emitResponse_spec res s :
  emitResponse res s =
    (Done None, sending (upstreamSamples res ++ fixedSamples res) s).
Proof.
  unfold emitResponse, bind at 1.
  rewrite (forRange_sending
             (fun i : gmap string float64 =>
                map (fun kv => sample upstreamTime (snd kv) [fst kv])
                    (map_to_list i))).
  - fold (upstreamSamples res).
    unfold bind, MustNewConstMetric, ret, send, sending; simpl.
    f_equal. f_equal. by rewrite <- !app_assoc.
  - intros i s0.
    rewrite (forRange_sending
               (fun kv : string * float64 =>
                  [sample upstreamTime (snd kv) [fst kv]])).
    + reflexivity.
    + intros kv s1. reflexivity.
Qed.

(** ** The outcome of the fetch (main.go, lines 110-126) *)

Definition statsURL (e : Exporter) : string :=
  "http://" +:+ Endpoint e +:+ "/control/stats".

Definition authorization (e : Exporter) : string :=
  "Basic " +:+ base64.EncodeToString (Username e +:+ ":" +:+ Password e).

(** The request the exporter hands to [client.Do]. *)
Definition statsRequest (e : Exporter) : http.Request :=
  http.mkRequest "GET" (statsURL e) {[ "Authorization" := [authorization e] ]}.

(** How a fetch ends: with the body, or with the error of the step that
    failed. *)
Inductive Fetch (net : http.Upstream) (e : Exporter) : string + error -> Prop :=
| cannot_build err :
    http.NewRequest net http.MethodGet (statsURL e) = inr err ->
    Fetch net e (inr err)
| cannot_send req err :
    http.NewRequest net http.MethodGet (statsURL e) = inl req ->
    http.Do net (statsRequest e) = inr err ->
    Fetch net e (inr err)
| cannot_read req b err :
    http.NewRequest net http.MethodGet (statsURL e) = inl req ->
    http.Do net (statsRequest e) = inl b ->
    http.readErr b = Some err ->
    Fetch net e (inr err)
| fetched req b :
    http.NewRequest net http.MethodGet (statsURL e) = inl req ->
    http.Do net (statsRequest e) = inl b ->
    http.readErr b = None ->
    Fetch net e (inl (http.data b)).

(** The requests of one fetch: none when the request could not be built. *)
Definition requests (net : http.Upstream) (e : Exporter) : list http.Request :=
  match http.NewRequest net http.MethodGet (statsURL e) with
  | inl _ => [statsRequest e]
  | inr _ => []
  end.

Definition requesting (rs : list http.Request) (s : state) : state :=
  mkState (ch s) (stdout s) (sent s ++ rs).

Lemma NewRequest_inl net method url req :
  http.NewRequest net method url = inl req ->
  req = http.mkRequest method url ∅.
Proof.
  unfold http.NewRequest. destruct (http.urlError net url); congruence.
Qed.

Lemma Header_Set_stats e :
  http.Header_Set (http.mkRequest http.MethodGet (statsURL e) ∅)
    "Authorization" ("Basic " +:+
       base64.EncodeToString (Username e +:+ ":" +:+ Password e))
  = statsRequest e.
Proof. unfold http.Header_Set, statsRequest; simpl. by rewrite insert_empty. Qed.

(** [CollectFromAPI] when the fetch fails: the error is returned and
    nothing is sent on the channel. *)
Lemma CollectFromAPI_failed net e err s :
  Fetch net e (inr err) ->
  CollectFromAPI net e s = (Done (Some err), requesting (requests net e) s).
Proof.
  intros F. inversion F as [err' Hb|req err' Hb Hd|req b err' Hb Hd Hr|];
    subst; unfold CollectFromAPI, requests; fold (statsURL e); rewrite Hb.
  - unfold ret, requesting; simpl. rewrite app_nil_r. by destruct s.
  - apply NewRequest_inl in Hb as ->. rewrite Header_Set_stats.
    unfold bind, client_Do. by rewrite Hd.
  - apply NewRequest_inl in Hb as ->. rewrite Header_Set_stats.
    unfold bind, client_Do. rewrite Hd. unfold http.ReadAll. by rewrite Hr.
Qed.

(** [CollectFromAPI] when the body was read: whatever [json.Unmarshal]
    says, the response it left is emitted and [nil] is returned. *)
Lemma CollectFromAPI_fetched net e body s :
  Fetch net e (inl body) ->
  CollectFromAPI net e s =
    (Done None,
     sending (upstreamSamples (decode.Unmarshal body zeroResponse).1
              ++ fixedSamples (decode.Unmarshal body zeroResponse).1)
             (requesting [statsRequest e] s)).
Proof.
  intros F. inversion F as [| | |req b Hb Hd Hr]; subst.
  unfold CollectFromAPI; fold (statsURL e); rewrite Hb.
  apply NewRequest_inl in Hb as ->. rewrite Header_Set_stats.
  unfold bind, client_Do. rewrite Hd. unfold http.ReadAll. rewrite Hr.
  destruct (decode.Unmarshal (http.data b) zeroResponse) as [res err].
  by rewrite emitResponse_spec.
Qed.

Lemma requests_fetched net e body :
  Fetch net e (inl body) -> requests net e = [statsRequest e].
Proof.
  intros F. inversion F as [| | |req b Hb Hd Hr]; subst.
  unfold requests. by rewrite Hb.
Qed.

(** Every fetch ends in one of the four ways. *)
Lemma Fetch_total net e : exists r, Fetch net e r.
Proof.
  destruct (http.NewRequest net http.MethodGet (statsURL e)) as [req|err] eqn:Hb.
  - destruct (http.Do net (statsRequest e)) as [b|err] eqn:Hd.
    + destruct (http.readErr b) as [err|] eqn:Hr.
      * exists (inr err). by eapply cannot_read.
      * exists (inl (http.data b)). by eapply fetched.
    + exists (inr err). by eapply cannot_send.
  - exists (inr err). by apply cannot_build.
Qed.

Lemma Fetch_functional net e r1 r2 : Fetch net e r1 -> Fetch net e r2 -> r1 = r2.
Proof. intros F1 F2. inversion F1; inversion F2; congruence. Qed.

(** The state after a whole cycle. *)
Lemma Collect_failed net e err s :
  Fetch net e (inr err) ->
  Collect net e s =
    (Done tt,
     mkState (ch s ++ [upSample 0; upSample 1])
             (stdout s +:+ ("ERROR: " +:+ err))
             (sent s ++ requests net e)).
Proof.
  intros F. unfold Collect, bind at 1. rewrite (CollectFromAPI_failed _ _ _ _ F).
  unfold bind, MustNewConstMetric, ret, send, Printf, requesting; simpl.
  by rewrite <- app_assoc.
Qed.

Lemma Collect_fetched net e body s :
  Fetch net e (inl body) ->
  Collect net e s =
    (Done tt,
     mkState (ch s ++ upstreamSamples (decode.Unmarshal body zeroResponse).1
                   ++ fixedSamples (decode.Unmarshal body zeroResponse).1
                   ++ [upSample 1])
             (stdout s)
             (sent s ++ [statsRequest e])).
Proof.
  intros F. unfold Collect, bind at 1. rewrite (CollectFromAPI_fetched _ _ _ _ F).
  unfold bind, MustNewConstMetric, ret, send, sending, requesting; simpl.
  by rewrite <- !app_assoc.
Qed.

(** ** Counting the samples of a cycle *)

Definition named (d : Desc) (m : Metric) : bool :=
  String.eqb (fqName (desc m)) (fqName d).

(** The [adguardhome_up] samples. *)
Definition liveness (out : list Metric) : list Metric :=
  List.filter (named up) out.

(** The [adguardhome_upstream_responses] samples. *)
Definition upstreamTimings (out : list Metric) : list Metric :=
  List.filter (named upstreamTime) out.

(** The samples of the other, unlabeled descriptors. *)
Definition fixedName (out : list Metric) : list Metric :=
  List.filter (fun m => negb (named up m) && negb (named upstreamTime m)) out.

Lemma filter_upstreamSamples (p : Metric -> bool) res :
  (forall v lvs, p (sample upstreamTime v lvs) = true) ->
  List.filter p (upstreamSamples res) = upstreamSamples res.
Proof.
  intros Hp. unfold upstreamSamples.
  induction (UpstreamTime res) as [|i l IH]; simpl; [done|].
  rewrite List.filter_app, IH. f_equal.
  induction (map_to_list i) as [|kv l' IH']; simpl; [done|].
  by rewrite Hp, IH'.
Qed.

Lemma filter_upstreamSamples_none (p : Metric -> bool) res :
  (forall v lvs, p (sample upstreamTime v lvs) = false) ->
  List.filter p (upstreamSamples res) = [].
Proof.
  intros Hp. unfold upstreamSamples.
  induction (UpstreamTime res) as [|i l IH]; simpl; [done|].
  rewrite List.filter_app, IH, app_nil_r.
  induction (map_to_list i) as [|kv l' IH']; simpl; [done|].
  by rewrite Hp, IH'.
Qed.

(** One upstream sample per key of every entry. *)
Lemma length_upstreamSamples res :
  length (upstreamSamples res) = sum_list_with size (UpstreamTime res).
Proof.
  unfold upstreamSamples.
  induction (UpstreamTime res) as [|i l IH]; simpl; [done|].
  by rewrite length_app, length_map, length_map_to_list, IH.
Qed.


(** The three groups of samples of a cycle whose fetch succeeded. *)
Lemma groups_fetched res :
  let out := upstreamSamples res ++ fixedSamples res ++ [upSample 1] in
  liveness out = [upSample 1] /\
  fixedName out = fixedSamples res /\
  upstreamTimings out = upstreamSamples res.
Proof.
  unfold liveness, fixedName, upstreamTimings. cbv zeta.
  rewrite !List.filter_app.
  rewrite (filter_upstreamSamples_none (named up)) by done.
  rewrite (filter_upstreamSamples_none
             (fun m => negb (named up m) && negb (named upstreamTime m)))
    by done.
  rewrite (filter_upstreamSamples (named upstreamTime)) by done.
  repeat split; simpl; by rewrite ?app_nil_r.
Qed.

(** ** Upstreams used to run the cycle on concrete inputs *)

Definition parseError (url : string) : option error :=
  if http.containsCTLByte url
  then Some "net/url: invalid control character in URL"
  else None.

Lemma parseError_CTL url :
  http.containsCTLByte url = true -> parseError url <> None.
Proof. unfold parseError. by intros ->. Qed.

(** An upstream that answers every request with [body]. *)
Definition serving (body : string) : http.Upstream :=
  http.mkUpstream parseError (fun _ => inl (http.mkBody body None))
    parseError_CTL.

(** An upstream that cannot be reached. *)
Definition unreachable : http.Upstream :=
  http.mkUpstream parseError
    (fun _ => inr "dial tcp: connect: connection refused") parseError_CTL.

(** An upstream whose connection breaks while the body is read. *)
Definition truncating (body : string) : http.Upstream :=
  http.mkUpstream parseError
    (fun _ => inl (http.mkBody body (Some "unexpected EOF"))) parseError_CTL.

Definition admin : Exporter := NewExporter "127.0.0.1:3000" "admin" "secret".

(** An endpoint read with its line feed. *)
Definition lineFeedEndpoint : Exporter :=
  NewExporter ("127.0.0.1:3000" +:+ String "010"%char EmptyString)
    "admin" "secret".

Lemma Fetch_serving body e :
  http.containsCTLByte (statsURL e) = false ->
  Fetch (serving body) e (inl body).
Proof.
  intros H.
  apply (fetched (serving body) e
           (http.mkRequest http.MethodGet (statsURL e) ∅)
           (http.mkBody body None)); [|done..].
  unfold http.NewRequest; simpl. unfold parseError. by rewrite H.
Qed.

Lemma Fetch_unreachable e :
  http.containsCTLByte (statsURL e) = false ->
  Fetch unreachable e (inr "dial tcp: connect: connection refused").
Proof.
  intros H.
  apply (cannot_send unreachable e
           (http.mkRequest http.MethodGet (statsURL e) ∅)); [|done].
  unfold http.NewRequest; simpl. unfold parseError. by rewrite H.
Qed.

(** JSON text, written here with ['] where the body has a double quote. *)
Fixpoint text (s : string) : string :=
  match s with
  | EmptyString => EmptyString
  | String c rest =>
      String (if json.eqc c "'" then json.dquote else c) (text rest)
  end.

(** The body of the specification's example scrape. *)
Definition exampleBody : string :=
  text "{'num_dns_queries':10,'num_blocked_filtering':2,'avg_processing_time':0.5,'num_replaced_safebrowsing':1,'num_replaced_safesearch':0,'top_upstreams_avg_time':[{'1.1.1.1':0.02}]}".

Example example_scrape :
  (Collect (serving exampleBody) admin initial).2.(ch) =
    [ sample upstreamTime (S754_finite false 5764607523034235 (-58)) ["1.1.1.1"];
      sample dnsQueries (Float64.of_int 10) [];
      sample blockedDNSqueries (Float64.of_int 2) [];
      sample processingTime (S754_finite false 4503599627370496 (-53)) [];
      sample safeBrowsing (Float64.of_int 1) [];
      sample safeSearch (Float64.of_int 0) [];
      upSample 1 ].
Proof. vm_compute. reflexivity. Qed.

(** ** C1, C3: the cycle when the fetch or the decoding fails *)

(** C1 (the code departs from the claim).  The claim: when the upstream
    fetch fails (the request cannot be built or sent, or the body cannot be
    read) the collector emits exactly one sample, [adguardhome_up] with
    value 0.  The code: [Collect] sends [up 0] in its error branch and,
    having no [return] there, goes on to send [up 1] as well; the channel
    holds two liveness samples. *)
Theorem C1_failed_fetch_sends_up_0_then_up_1 net e err :
  Fetch net e (inr err) ->
  (Collect net e initial).2.(ch) = [upSample 0; upSample 1].
Proof. intros F. by rewrite (Collect_failed _ _ _ _ F). Qed.

Lemma C1_unreachable_witness :
  Fetch unreachable admin (inr "dial tcp: connect: connection refused") /\
  (Collect unreachable admin initial).2.(ch) = [upSample 0; upSample 1].
Proof.
  split.
  - apply Fetch_unreachable. reflexivity.
  - apply (C1_failed_fetch_sends_up_0_then_up_1 unreachable admin
             "dial tcp: connect: connection refused").
    apply Fetch_unreachable. reflexivity.
Defined.

(** The same two samples when the request cannot be built and when the
    body cannot be read; the error is printed. *)
Example failed_fetch_other_ways :
  (Collect (serving "{}") lineFeedEndpoint initial).2.(ch)
    = [upSample 0; upSample 1] /\
  (Collect (truncating "{") admin initial).2.(ch)
    = [upSample 0; upSample 1] /\
  (Collect (truncating "{") admin initial).2.(stdout)
    = "ERROR: unexpected EOF".
Proof. repeat split; vm_compute; reflexivity. Qed.

(** C3 (the code departs from the claim).  The claim: a body that is not
    valid JSON gives only [adguardhome_up 0].  The code: the error of
    [json.Unmarshal] is assigned and never tested, so the untouched, zero
    [Response] is emitted - five data samples of value 0 - and the cycle
    ends with [up 1]; no [up 0] is sent and nothing is printed. *)
Theorem C3_invalid_json_emits_zero_data_and_up_1 net e body :
  Fetch net e (inl body) ->
  json.parse body = None ->
  Collect net e initial =
    (Done tt,
     mkState (fixedSamples zeroResponse ++ [upSample 1]) "" [statsRequest e]).
Proof.
  intros F Hparse. rewrite (Collect_fetched _ _ _ _ F).
  unfold decode.Unmarshal. by rewrite Hparse.
Qed.

Lemma C3_not_json_witness :
  Fetch (serving "not json") admin (inl "not json") /\
  json.parse "not json" = None /\
  Collect (serving "not json") admin initial =
    (Done tt,
     mkState (fixedSamples zeroResponse ++ [upSample 1]) "" [statsRequest admin]).
Proof.
  split; [|split].
  - apply Fetch_serving. reflexivity.
  - reflexivity.
  - apply (C3_invalid_json_emits_zero_data_and_up_1 (serving "not json")
             admin "not json").
    + apply Fetch_serving. reflexivity.
    + reflexivity.
Defined.

(** ** C2: the samples of a cycle *)


Definition twoKeysBody : string :=
  text "{'top_upstreams_avg_time':[{'8.8.8.8':0.01,'1.1.1.1':0.02}]}".




(** ** C6, C10: the upstream-timing samples *)

(** C6.  When the decoded sequence of upstream times is empty the cycle
    does not fail: neither a panic nor an error, no
    [adguardhome_upstream_responses] sample, and the five fixed-name samples
    followed by [up 1]. *)
Theorem C6_empty_sequence_emits_no_upstream_sample res :
  UpstreamTime res = [] ->
  emitResponse res initial = (Done None, mkState (fixedSamples res) "" []) /\
  forall net e body,
    Fetch net e (inl body) ->
    (decode.Unmarshal body zeroResponse).1 = res ->
    Collect net e initial =
      (Done tt, mkState (fixedSamples res ++ [upSample 1]) "" [statsRequest e])
    /\ upstreamTimings (Collect net e initial).2.(ch) = [].
Proof.
  intros Hempty.
  assert (Hups : upstreamSamples res = [])
    by (unfold upstreamSamples; by rewrite Hempty).
  split.
  - rewrite emitResponse_spec, Hups. reflexivity.
  - intros net e body F Hres. rewrite (Collect_fetched _ _ _ _ F), Hres, Hups.
    split; reflexivity.
Qed.

Definition noUpstreamsBody : string :=
  text "{'num_dns_queries':7,'top_upstreams_avg_time':[]}".

Lemma C6_empty_sequence_witness :
  UpstreamTime (decode.Unmarshal noUpstreamsBody zeroResponse).1 = [] /\
  emitResponse (decode.Unmarshal noUpstreamsBody zeroResponse).1 initial =
    (Done None,
     mkState (fixedSamples (decode.Unmarshal noUpstreamsBody zeroResponse).1)
       "" []).
Proof.
  split.
  - vm_compute. reflexivity.
  - apply (C6_empty_sequence_emits_no_upstream_sample
             (decode.Unmarshal noUpstreamsBody zeroResponse).1).
    vm_compute. reflexivity.
Defined.

(** C10.  Every entry of the sequence contributes one
    [adguardhome_upstream_responses] sample per address key it holds,
    labelled with the key and valued with the key's time; the number of
    these samples is the sum of the entries' key counts. *)
Theorem C10_one_upstream_sample_per_key net e body :
  Fetch net e (inl body) ->
  let res := (decode.Unmarshal body zeroResponse).1 in
  let out := (Collect net e initial).2.(ch) in
  upstreamTimings out =
    flat_map (fun i : gmap string float64 =>
                map (fun kv => sample upstreamTime kv.2 [kv.1]) (map_to_list i))
             (UpstreamTime res) /\
  length (upstreamTimings out) = sum_list_with size (UpstreamTime res).
Proof.
  intros F res out. subst out. rewrite (Collect_fetched _ _ _ _ F).
  unfold initial. cbn [snd ch app]. fold res.
  destruct (groups_fetched res) as (_ & _ & Hups).
  rewrite Hups. split; [reflexivity | apply length_upstreamSamples].
Qed.

Lemma C10_two_keys_witness :
  Fetch (serving twoKeysBody) admin (inl twoKeysBody) /\
  length (UpstreamTime (decode.Unmarshal twoKeysBody zeroResponse).1) = 1%nat /\
  length (upstreamTimings (Collect (serving twoKeysBody) admin initial).2.(ch))
    = sum_list_with size (UpstreamTime (decode.Unmarshal twoKeysBody zeroResponse).1).
Proof.
  split; [|split].
  - apply Fetch_serving. reflexivity.
  - vm_compute. reflexivity.
  - apply (C10_one_upstream_sample_per_key (serving twoKeysBody) admin
             twoKeysBody).
    apply Fetch_serving. reflexivity.
Defined.

(** ** C7: the request of a fetch *)

(** The claim's words: whatever the configuration, a fetch hands exactly
    one request, the authorized GET, to the client. *)
Definition spec_one_request (net : http.Upstream) (e : Exporter) : Prop :=
  (CollectFromAPI net e initial).2.(sent) = [statsRequest e].

(** C7, counterexample.  [http.NewRequest] refuses the URL of an endpoint
    that ends in a line feed, and the fetch ends before any request
    exists. *)
Lemma C7_counterexample : ~ spec_one_request (serving "{}") lineFeedEndpoint.
Proof. unfold spec_one_request. vm_compute. discriminate. Qed.

(** No upstream sees a request for a URL with a control byte. *)
Lemma requests_CTL net e :
  http.containsCTLByte (statsURL e) = true -> requests net e = [].
Proof.
  intros H. unfold requests, http.NewRequest.
  pose proof (http.urlError_CTL net _ H).
  by destruct (http.urlError net (statsURL e)).
Qed.

Lemma sent_CollectFromAPI net e s :
  (CollectFromAPI net e s).2.(sent) = sent s ++ requests net e.
Proof.
  destruct (Fetch_total net e) as [[body|err] F].
  - rewrite (CollectFromAPI_fetched _ _ _ _ F), (requests_fetched _ _ _ F).
    reflexivity.
  - by rewrite (CollectFromAPI_failed _ _ _ _ F).
Qed.

(** C7 (amended).  For every configuration whose URL
    [http://{endpoint}/control/stats] is accepted by [http.NewRequest],
    a fetch hands exactly one request to the client: a GET of that URL
    whose only header is [Authorization: Basic] followed by the base64 of
    the username, a colon and the password. *)
Theorem C7_one_authorized_GET net e s :
  http.urlError net ("http://" +:+ Endpoint e +:+ "/control/stats") = None ->
  (CollectFromAPI net e s).2.(sent) =
    sent s ++
    [ http.mkRequest "GET" ("http://" +:+ Endpoint e +:+ "/control/stats")
        {[ "Authorization" :=
             [ "Basic " +:+
               base64.EncodeToString (Username e +:+ ":" +:+ Password e) ] ]} ].
Proof.
  intros Hurl. rewrite sent_CollectFromAPI. f_equal.
  unfold requests, http.NewRequest, statsURL. by rewrite Hurl.
Qed.

Lemma C7_admin_witness :
  http.urlError unreachable "http://127.0.0.1:3000/control/stats" = None /\
  (CollectFromAPI unreachable admin initial).2.(sent) =
    [ http.mkRequest "GET" "http://127.0.0.1:3000/control/stats"
        {[ "Authorization" := [ "Basic YWRtaW46c2VjcmV0" ] ]} ].
Proof.
  split.
  - reflexivity.
  - apply (C7_one_authorized_GET unreachable admin initial). reflexivity.
Defined.

(** ** C8: fields the body omits *)

#[global] Instance Field_eq_dec : EqDecision Field.
Proof. solve_decision. Defined.

(** The shapes the decoder stores without an error; [null] is accepted
    everywhere. *)
Definition fitsInt (v : json.Value) : bool :=
  match v with
  | json.Null => true
  | json.Number lit => bool_decide (is_Some (strconv.ParseInt lit))
  | _ => false
  end.

Definition fitsFloat (v : json.Value) : bool :=
  match v with
  | json.Null => true
  | json.Number lit => bool_decide (is_Some (strconv.ParseFloat lit))
  | _ => false
  end.

Definition fitsMap (v : json.Value) : bool :=
  match v with
  | json.Null => true
  | json.Object members => forallb (fun kv => fitsFloat kv.2) members
  | _ => false
  end.

Definition fitsSlice (v : json.Value) : bool :=
  match v with
  | json.Null => true
  | json.Array elems => forallb fitsMap elems
  | _ => false
  end.

Definition fits (f : Field) (v : json.Value) : bool :=
  match f with
  | fUpstreamTime => fitsSlice v
  | fProcessingTime => fitsFloat v
  | _ => fitsInt v
  end.

(** Every member that selects a field has the shape of that field. *)
Definition expectedShape (members : list (string * json.Value)) : bool :=
  forallb (fun kv => match decode.lookupField kv.1 with
                     | Some f => fits f kv.2
                     | None => true
                     end) members.

(** No member selects the field [f]. *)
Definition omits (f : Field) (members : list (string * json.Value)) : bool :=
  forallb (fun kv => match decode.lookupField kv.1 with
                     | Some g => bool_decide (g <> f)
                     | None => true
                     end) members.

(** The field [f] of [res] holds its zero value. *)
Definition isZero (f : Field) (res : Response) : Prop :=
  match f with
  | fUpstreamTime => UpstreamTime res = []
  | fAllDNSQueries => AllDNSQueries res = 0
  | fBlockedDNSQueries => BlockedDNSQueries res = 0
  | fProcessingTime => ProcessingTime res = S754_zero false
  | fSafeBrowsing => SafeBrowsing res = 0
  | fSafeSearch => SafeSearch res = 0
  end.

Lemma storeInt_fits v cur : fitsInt v = true -> (decode.storeInt v cur).2 = None.
Proof.
  destruct v; simpl; try done.
  intros [n Hn]%bool_decide_eq_true. by rewrite Hn.
Qed.

Lemma storeFloat_fits v cur :
  fitsFloat v = true -> (decode.storeFloat v cur).2 = None.
Proof.
  destruct v; simpl; try done.
  intros [n Hn]%bool_decide_eq_true. by rewrite Hn.
Qed.

Lemma storeMembers_fits members acc :
  acc.2 = None ->
  forallb (fun kv => fitsFloat kv.2) members = true ->
  (fold_left decode.storeMember members acc).2 = None.
Proof.
  revert acc. induction members as [|kv members IH]; intros acc Hacc H;
    simpl in *; [done|].
  apply andb_prop in H as [Hkv H]. apply IH; [|done].
  unfold decode.storeMember.
  pose proof (storeFloat_fits kv.2 Float64.zero Hkv) as Herr.
  destruct (decode.storeFloat kv.2 Float64.zero) as [x err]; simpl in *.
  by rewrite Hacc, Herr.
Qed.

Lemma storeMap_fits v cur : fitsMap v = true -> (decode.storeMap v cur).2 = None.
Proof.
  destruct v; simpl; try done. intros H. by apply storeMembers_fits.
Qed.

Lemma storeElems_fits vs cur :
  forallb fitsMap vs = true -> (decode.storeElems vs cur).2 = None.
Proof.
  revert cur. induction vs as [|v vs IH]; intros cur H; simpl in *; [done|].
  apply andb_prop in H as [Hv H].
  pose proof (storeMap_fits v (hd ∅ cur) Hv) as Herr.
  destruct (decode.storeMap v (hd ∅ cur)) as [m err]; simpl in *.
  specialize (IH (tl cur) H).
  destruct (decode.storeElems vs (tl cur)) as [ms err']; simpl in *.
  by rewrite Herr, IH.
Qed.

Lemma storeSlice_fits v cur :
  fitsSlice v = true -> (decode.storeSlice v cur).2 = None.
Proof.
  destruct v; simpl; try done. intros H. by apply storeElems_fits.
Qed.

Lemma storeField_fits f v res :
  fits f v = true -> (decode.storeField f v res).2 = None.
Proof.
  intros H. destruct f; simpl in *;
    [ pose proof (storeSlice_fits v (UpstreamTime res) H) as Herr;
      destruct (decode.storeSlice v (UpstreamTime res))
    | pose proof (storeInt_fits v (AllDNSQueries res) H) as Herr;
      destruct (decode.storeInt v (AllDNSQueries res))
    | pose proof (storeInt_fits v (BlockedDNSQueries res) H) as Herr;
      destruct (decode.storeInt v (BlockedDNSQueries res))
    | pose proof (storeFloat_fits v (ProcessingTime res) H) as Herr;
      destruct (decode.storeFloat v (ProcessingTime res))
    | pose proof (storeInt_fits v (SafeBrowsing res) H) as Herr;
      destruct (decode.storeInt v (SafeBrowsing res))
    | pose proof (storeInt_fits v (SafeSearch res) H) as Herr;
      destruct (decode.storeInt v (SafeSearch res)) ];
    exact Herr.
Qed.

(** Storing into one field leaves the others as they are. *)
Lemma storeField_other f g v res :
  g <> f -> isZero f res -> isZero f (decode.storeField g v res).1.
Proof.
  intros Hne Hz. destruct g; simpl;
    [ destruct (decode.storeSlice v (UpstreamTime res))
    | destruct (decode.storeInt v (AllDNSQueries res))
    | destruct (decode.storeInt v (BlockedDNSQueries res))
    | destruct (decode.storeFloat v (ProcessingTime res))
    | destruct (decode.storeInt v (SafeBrowsing res))
    | destruct (decode.storeInt v (SafeSearch res)) ];
    destruct f; simpl in *; congruence.
Qed.

Lemma storeKey_zero acc kv f :
  match decode.lookupField kv.1 with
  | Some g => bool_decide (g <> f)
  | None => true
  end = true ->
  isZero f acc.1 -> isZero f (decode.storeKey acc kv).1.
Proof.
  unfold decode.storeKey.
  destruct (decode.lookupField kv.1) as [g|]; [|done].
  pose proof (storeField_other f g kv.2 acc.1) as Hother.
  destruct (decode.storeField g kv.2 acc.1) as [res err]; simpl in *.
  intros Hne%bool_decide_eq_true Hz. by apply Hother.
Qed.

(** A field that no member selects keeps its value, whatever the members
    hold. *)
Lemma storeKeys_zero members acc f :
  omits f members = true ->
  isZero f acc.1 -> isZero f (fold_left decode.storeKey members acc).1.
Proof.
  revert acc. induction members as [|kv members IH]; intros acc Hf Hz;
    simpl in *; [done|].
  apply andb_prop in Hf as [Hkv Hf]. apply IH; [done|].
  by apply storeKey_zero.
Qed.

Lemma storeKey_fits acc kv :
  acc.2 = None ->
  match decode.lookupField kv.1 with
  | Some f => fits f kv.2
  | None => true
  end = true ->
  (decode.storeKey acc kv).2 = None.
Proof.
  intros Hacc Hkv. unfold decode.storeKey.
  destruct (decode.lookupField kv.1) as [g|]; [|done].
  pose proof (storeField_fits g kv.2 acc.1 Hkv) as Herr.
  destruct (decode.storeField g kv.2 acc.1) as [res err]; simpl in *.
  by rewrite Hacc, Herr.
Qed.

(** Members of the expected shape are stored without an error. *)
Lemma storeKeys_fits members acc :
  acc.2 = None ->
  expectedShape members = true ->
  (fold_left decode.storeKey members acc).2 = None.
Proof.
  revert acc. induction members as [|kv members IH]; intros acc Hacc Hshape;
    simpl in *; [done|].
  apply andb_prop in Hshape as [Hkv Hshape]. apply IH; [|done].
  by apply storeKey_fits.
Qed.

(** The members of a body's top-level value; a value that is not an
    object has none. *)
Definition membersOf (v : json.Value) : list (string * json.Value) :=
  match v with
  | json.Object members => members
  | _ => []
  end.

(** The top-level value is [null] or an object whose members have the
    shape of the fields they select. *)
Definition matchesResponse (v : json.Value) : bool :=
  match v with
  | json.Null => true
  | json.Object members => expectedShape members
  | _ => false
  end.

(** C8.  For every body that is valid JSON, every field of [Response]
    that the body has no member for holds its zero value after
    [json.Unmarshal] (the empty sequence, 0, or 0.0), and the missing
    members cause no error: when the members that are present have the
    shape of their fields, [json.Unmarshal] returns [nil]. *)
Theorem C8_omitted_fields_take_zero_values body v :
  json.parse body = Some v ->
  exists (res : Response) (err : option error),
    decode.Unmarshal body zeroResponse = (res, err) /\
    (forall f, omits f (membersOf v) = true -> isZero f res) /\
    (matchesResponse v = true -> err = None).
Proof.
  intros Hparse.
  exists (decode.Unmarshal body zeroResponse).1,
         (decode.Unmarshal body zeroResponse).2.
  split; [by destruct (decode.Unmarshal body zeroResponse)|].
  unfold decode.Unmarshal. rewrite Hparse.
  assert (Hzero : forall f, isZero f zeroResponse) by (by intros []).
  destruct v as [|b|lit|str|elems|members]; simpl;
    try (split; [intros f _; apply Hzero | done]).
  split.
  - intros f Hf. by apply storeKeys_zero.
  - intros Hshape. by apply storeKeys_fits.
Qed.

Definition onlyQueriesBody : string := text "{'num_dns_queries':10}".

Lemma C8_only_queries_witness :
  json.parse onlyQueriesBody
    = Some (json.Object [("num_dns_queries", json.Number "10")]) /\
  exists (res : Response) (err : option error),
    decode.Unmarshal onlyQueriesBody zeroResponse = (res, err) /\
    (forall f,
       omits f (membersOf (json.Object [("num_dns_queries", json.Number "10")]))
         = true -> isZero f res) /\
    (matchesResponse (json.Object [("num_dns_queries", json.Number "10")])
       = true -> err = None).
Proof.
  split.
  - vm_compute. reflexivity.
  - apply (C8_omitted_fields_take_zero_values onlyQueriesBody
             (json.Object [("num_dns_queries", json.Number "10")])).
    vm_compute. reflexivity.
Defined.

(** ** C5, C9: how [main] resolves its configuration *)

Lemma deref_assign_eq p x vs : deref p (assign p x vs) = x.
Proof. by destruct p. Qed.

Lemma deref_assign_ne p q x vs : p <> q -> deref p (assign q x vs) = deref p vs.
Proof. by destruct p, q. Qed.

(** The value of a variable once the environment was checked: the
    environment's, unless that is empty. *)
Definition fromEnv (environ : gmap string string) (p : ptr) : string :=
  if String.eqb (Getenv environ (envKey p)) "" then deref p flag.defaults
  else Getenv environ (envKey p).

Lemma checkEnv_untouched environ l vs p :
  p ∉ map snd l -> deref p (fold_left (checkEnv environ) l vs) = deref p vs.
Proof.
  revert vs. induction l as [|kv l IH]; intros vs Hp; simpl in *; [done|].
  apply not_elem_of_cons in Hp as [Hne Hp]. rewrite IH by done.
  unfold checkEnv. destruct (String.eqb _ _); [done|].
  by apply deref_assign_ne.
Qed.

(** The loop over [config] in any order of its entries. *)
Lemma checkEnv_touched environ l vs k p :
  NoDup (map snd l) -> (k, p) ∈ l ->
  deref p (fold_left (checkEnv environ) l vs) =
    if String.eqb (Getenv environ k) "" then deref p vs else Getenv environ k.
Proof.
  revert vs. induction l as [|kv l IH]; intros vs Hnd Hin; simpl in *.
  - by apply elem_of_nil in Hin.
  - apply NoDup_cons in Hnd as [Hkv Hnd].
    apply elem_of_cons in Hin as [<-|Hin].
    + rewrite checkEnv_untouched by done. unfold checkEnv; simpl.
      destruct (String.eqb _ _); [done|]. apply deref_assign_eq.
    + rewrite IH by done.
      assert (p <> kv.2) as Hne.
      { intros ->. apply Hkv. apply (list_elem_of_fmap_2 snd _ _ Hin). }
      unfold checkEnv. destruct (String.eqb (Getenv environ kv.1) "");
        [done|]. by rewrite deref_assign_ne.
Qed.

Lemma config_entry p : (envKey p, p) ∈ map_to_list config.
Proof. apply elem_of_map_to_list. by destruct p. Qed.

Lemma config_NoDup : NoDup (map snd (map_to_list config)).
Proof.
  assert (map snd (map_to_list config)
          = [username; endpoint; address; password; path]) as ->
    by (vm_compute; reflexivity).
  repeat (apply NoDup_cons; split;
          [rewrite ?not_elem_of_cons; repeat split;
           try discriminate; apply not_elem_of_nil|]).
  apply NoDup_nil_2.
Qed.

(** Go ranges over [config] in an unspecified order; the variables end up
    the same in every order. *)
Lemma checkEnv_any_order environ l p :
  l ≡ₚ map_to_list config ->
  deref p (fold_left (checkEnv environ) l flag.defaults) = fromEnv environ p.
Proof.
  intros Hperm. unfold fromEnv. apply checkEnv_touched.
  - rewrite Hperm. apply config_NoDup.
  - rewrite Hperm. apply config_entry.
Qed.




















Example empty_variable_keeps_default :
  main {[ "ADGUARD_PATH" := "" ]} [] = main ∅ [] /\
  resolved path (main {[ "ADGUARD_PATH" := "" ]} []) = Some "/metrics".
Proof. split; vm_compute; reflexivity. Qed.

Example empty_variable_keeps_flag :
  resolved path (main {[ "ADGUARD_PATH" := "" ]} ["-path=/stats"])
    = Some "/stats".
Proof. vm_compute. reflexivity. Qed.

(** ** C4: the metric mapping *)

(** *** [float64(n)] is exact up to 2^53 *)






(** *** The samples of a well-formed response *)



(** A response that counts 2^53 + 1 queries. *)
Definition bigCount : Response :=
  mkResponse [] 9007199254740993 0 Float64.zero 0 0.


(** The same from a body: the count is decoded exactly and sent
    rounded. *)
Example bigCount_scrape :
  (decode.Unmarshal (text "{'num_dns_queries':9007199254740993}")
     zeroResponse) = (bigCount, None) /\
  hd_error
    (Collect (serving (text "{'num_dns_queries':9007199254740993}")) admin
       initial).2.(ch)
    = Some (sample dnsQueries (S754_finite false 4503599627370496 1) []).
Proof. split; vm_compute; reflexivity. Qed.





(** The response the example body decodes to. *)
Definition exampleResponse : Response :=
  mkResponse [ {[ "1.1.1.1" := S754_finite false 5764607523034235 (-58) ]} ]
    10 2 (S754_finite false 4503599627370496 (-53)) 1 0.

Example exampleBody_decoded :
  decode.Unmarshal exampleBody zeroResponse = (exampleResponse, None).
Proof. vm_compute. reflexivity. Qed.


(** * Further properties of the exporter *)

(** ** Strings *)

Lemma append_cons c (s t : string) : String c s +:+ t = String c (s +:+ t).
Proof. reflexivity. Qed.

Lemma append_nil_r (s : string) : s +:+ "" = s.
Proof.
  induction s as [|c s IH]; [done|]. by rewrite append_cons, IH.
Qed.

Lemma append_assoc (s1 s2 s3 : string) :
  (s1 +:+ s2) +:+ s3 = s1 +:+ (s2 +:+ s3).
Proof.
  induction s1 as [|c s1 IH]; [done|]. by rewrite !append_cons, IH.
Qed.




(** ** [Describe] and [Collect] agree (main.go, lines 85-107) *)






(** ** Cycles do not see each other (main.go, lines 95-156) *)


(** ** What [CollectFromAPI] returns (main.go, lines 109-156) *)

(** X3.  [CollectFromAPI] returns an error exactly when the fetch failed,
    and then it is the error of the failed step and nothing was sent on the
    channel; once the body is read it returns [nil], also for a body that
    [json.Unmarshal] refuses.  It never prints, and it hands at most one
    request to the client. *)
Theorem CollectFromAPI_returns net e s r :
  Fetch net e r ->
  (CollectFromAPI net e s).1
    = Done match r with inr err => Some err | inl _ => None end /\
  (forall err, r = inr err -> ch (CollectFromAPI net e s).2 = ch s) /\
  stdout (CollectFromAPI net e s).2 = stdout s /\
  exists rs, sent (CollectFromAPI net e s).2 = sent s ++ rs
             /\ (length rs <= 1)%nat.
Proof.
  intros F. destruct r as [body|err].
  - rewrite (CollectFromAPI_fetched _ _ _ _ F). simpl.
    repeat split; [done|]. by exists [statsRequest e].
  - rewrite (CollectFromAPI_failed _ _ _ _ F). simpl.
    repeat split. exists (requests net e). split; [done|].
    unfold requests. by destruct (http.NewRequest _ _ _); simpl; lia.
Qed.

Lemma CollectFromAPI_returns_witness :
  Fetch (serving "not json") admin (inl "not json") /\
  (CollectFromAPI (serving "not json") admin initial).1 = Done None.
Proof.
  split.
  - apply Fetch_serving. reflexivity.
  - apply (CollectFromAPI_returns (serving "not json") admin initial
             (inl "not json")).
    apply Fetch_serving. reflexivity.
Defined.

(** X4.  A cycle prints [ERROR: ] and the error, with no line break, when
    the fetch fails, and prints nothing when the body was read. *)
Theorem Collect_prints net e s r :
  Fetch net e r ->
  stdout (Collect net e s).2 =
    stdout s +:+ match r with
                 | inr err => "ERROR: " +:+ err
                 | inl _ => ""
                 end.
Proof.
  intros F. destruct r as [body|err].
  - rewrite (Collect_fetched _ _ _ _ F). simpl. by rewrite append_nil_r.
  - by rewrite (Collect_failed _ _ _ _ F).
Qed.

Lemma Collect_prints_witness :
  Fetch unreachable admin (inr "dial tcp: connect: connection refused") /\
  stdout (Collect unreachable admin initial).2 =
    "ERROR: dial tcp: connect: connection refused".
Proof.
  split.
  - apply Fetch_unreachable. reflexivity.
  - apply (Collect_prints unreachable admin initial
             (inr "dial tcp: connect: connection refused")).
    apply Fetch_unreachable. reflexivity.
Defined.

(** ** No sample is NaN or infinite *)





























(** ** Members the exporter does not know (main.go, lines 64-71, 128-129) *)




(** ** Samples with the same name and labels (main.go, lines 131-153) *)

(** What the registry tells samples apart by: the name and the label
    values. *)
Definition identity (m : Metric) : string * list string :=
  (fqName (desc m), labelValues m).

(** The addresses of a response, entry after entry. *)
Definition addresses (res : Response) : list string :=
  flat_map (fun i : gmap string float64 => (map_to_list i).*1)
           (UpstreamTime res).

Lemma identity_upstreamSamples res :
  map identity (upstreamSamples res)
  = map (fun k => (fqName upstreamTime, [k])) (addresses res).
Proof.
  unfold upstreamSamples, addresses.
  induction (UpstreamTime res) as [|i l IH]; simpl; [done|].
  rewrite !map_app, IH. f_equal.
  induction (map_to_list i) as [|kv l' IH']; simpl; [done|].
  by rewrite IH'.
Qed.

(** X8.  In a cycle whose fetch succeeded no two samples share their name
    and label values exactly when no address occurs twice in the decoded
    sequence, be it in two entries; within one entry the addresses are
    always distinct. *)
Theorem Collect_identities_distinct net e body :
  Fetch net e (inl body) ->
  (NoDup (map identity (ch (Collect net e initial).2)) <->
   NoDup (addresses (decode.Unmarshal body zeroResponse).1)) /\
  Forall (fun i : gmap string float64 => NoDup (map_to_list i).*1)
         (UpstreamTime (decode.Unmarshal body zeroResponse).1).
Proof.
  intros F. split; [|apply Forall_forall; intros i _; apply NoDup_fst_map_to_list].
  rewrite (Collect_fetched _ _ _ _ F). unfold initial. cbn [snd ch app].
  set (res := (decode.Unmarshal body zeroResponse).1).
  rewrite map_app, identity_upstreamSamples.
  assert (Hinj : Inj (=) (=) (fun k : string => (fqName upstreamTime, [k])))
    by (intros k1 k2 [= ->]; done).
  rewrite NoDup_app. rewrite (NoDup_fmap _ (addresses res)). split.
  - by intros (H & _ & _).
  - intros H. split; [done|]. split.
    + intros x [k [-> _]]%list_elem_of_fmap. simpl.
      rewrite !not_elem_of_cons. repeat split; try discriminate.
      apply not_elem_of_nil.
    + simpl.
      repeat (apply NoDup_cons; split;
              [rewrite ?not_elem_of_cons; repeat split;
               try discriminate; apply not_elem_of_nil|]).
      apply NoDup_nil_2.
Qed.

Definition repeatedAddressBody : string :=
  text "{'top_upstreams_avg_time':[{'1.1.1.1':0.02},{'1.1.1.1':0.03}]}".

Lemma Collect_identities_distinct_witness :
  Fetch (serving repeatedAddressBody) admin (inl repeatedAddressBody) /\
  ~ NoDup (map identity
             (ch (Collect (serving repeatedAddressBody) admin initial).2)).
Proof.
  split.
  - apply Fetch_serving. reflexivity.
  - destruct (Collect_identities_distinct (serving repeatedAddressBody) admin
                repeatedAddressBody (Fetch_serving _ admin eq_refl))
      as [[Hdup _] _].
    intros Hno. specialize (Hdup Hno). vm_compute in Hdup.
    apply NoDup_cons in Hdup as [Hin _]. apply Hin. apply list_elem_of_here.
Defined.

(** ** The credentials in the request (main.go, lines 110-116) *)

(** *** [EncodeToString] is injective *)
























(** *** From the request back to the configuration *)






(** X10.  A colon in the username cannot be told from one in the
    password: moving the part of the username after a colon to the front of
    the password leaves the whole fetch as it is. *)
Theorem colon_in_username_is_ambiguous net ep u p q s :
  CollectFromAPI net (NewExporter ep (u +:+ ":" +:+ p) q) s
  = CollectFromAPI net (NewExporter ep u (p +:+ ":" +:+ q)) s.
Proof.
  unfold CollectFromAPI, NewExporter. simpl.
  by rewrite !append_assoc.
Qed.

(** ** The command line (main.go, lines 161-187) *)












(** An empty [-path=] wins over [ADGUARD_PATH], and [-path -address]
    serves the path [-address]. *)
Example flag_values_taken_as_they_are :
  resolved path (main {[ "ADGUARD_PATH" := "/stats" ]} ["-path="]) = Some "" /\
  resolved path (main ∅ ["-path"; "-address"]) = Some "-address".
Proof. split; vm_compute; reflexivity. Qed.

(** *** The order of the range over [config] *)

Lemma Vars_ext vs1 vs2 : (forall p, deref p vs1 = deref p vs2) -> vs1 = vs2.
Proof.
  intros H. destruct vs1, vs2.
  pose proof (H endpoint). pose proof (H username). pose proof (H password).
  pose proof (H address). pose proof (H path). simpl in *. by subst.
Qed.

(** [main] with the entries of [config] visited in the given order. *)
Definition mainIn (order : list (string * ptr))
    (environ : gmap string string) (args : list string) : started :=
  let vs := fold_left (checkEnv environ) order flag.defaults in
  match flag.Parse args (flag.mkFlagSet vs []) with
  | flag.Exit code => Exited code
  | flag.Parsed f _ =>
      let vs := flag.vars f in
      Serve (NewExporter (deref endpoint vs) (deref username vs)
               (deref password vs))
            (deref path vs) (deref address vs)
  end.

(** X13.  Go ranges over the [config] map in an order it does not fix;
    [main] starts the same way in every order. *)
Theorem main_any_range_order order environ args :
  order ≡ₚ map_to_list config ->
  mainIn order environ args = main environ args.
Proof.
  intros Hperm. unfold mainIn, main.
  replace (fold_left (checkEnv environ) order flag.defaults)
    with (fold_left (checkEnv environ) (map_to_list config) flag.defaults);
    [done|].
  apply Vars_ext. intros p.
  by rewrite (checkEnv_any_order environ order p Hperm),
             (checkEnv_any_order environ (map_to_list config) p).
Qed.

Lemma main_any_range_order_witness :
  reverse (map_to_list config) ≡ₚ map_to_list config /\
  mainIn (reverse (map_to_list config)) {[ "ADGUARD_PATH" := "/stats" ]} []
  = main {[ "ADGUARD_PATH" := "/stats" ]} [].
Proof.
  split.
  - apply reverse_Permutation.
  - apply (main_any_range_order (reverse (map_to_list config))).
    apply reverse_Permutation.
Defined.

(** *** Command lines that stop [main] *)



Example main_refuses_examples :
  main ∅ ["-verbose"; "-path"; "/x"] = Exited 2 /\
  main ∅ ["-metrics=1"] = Exited 2 /\
  main {[ "ADGUARD_PATH" := "/stats" ]} ["-help"] = Exited 0.
Proof. repeat split; vm_compute; reflexivity. Qed.

(** ** A body that is JSON but has no members (main.go, lines 128-156) *)

(** X15.  A body that is valid JSON but not an object - an array, a
    string, a number, [true], [false] or [null] - leaves the response
    untouched, as the empty object does, and the cycle goes on: the five
    data samples with value 0, then [up 1], and nothing printed. *)
Theorem Collect_non_object_body net e body v :
  Fetch net e (inl body) ->
  json.parse body = Some v ->
  membersOf v = [] ->
  (forall res, (decode.Unmarshal body res).1 = res) /\
  Collect net e initial =
    (Done tt,
     mkState (fixedSamples zeroResponse ++ [upSample 1]) "" [statsRequest e]).
Proof.
  intros F Hparse Hv.
  assert (Hres : forall res, (decode.Unmarshal body res).1 = res).
  { intros res. unfold decode.Unmarshal. rewrite Hparse.
    destruct v; simpl in *; try done. by rewrite Hv. }
  split; [done|]. by rewrite (Collect_fetched _ _ _ _ F), Hres.
Qed.

Lemma Collect_non_object_body_witness :
  Fetch (serving "[]") admin (inl "[]") /\
  json.parse "[]" = Some (json.Array []) /\
  membersOf (json.Array []) = [] /\
  Collect (serving "[]") admin initial =
    (Done tt,
     mkState (fixedSamples zeroResponse ++ [upSample 1]) ""
       [statsRequest admin]).
Proof.
  split; [|split; [|split]].
  - apply Fetch_serving. reflexivity.
  - reflexivity.
  - reflexivity.
  - apply (Collect_non_object_body (serving "[]") admin "[]" (json.Array [])).
    + apply Fetch_serving. reflexivity.
    + reflexivity.
    + reflexivity.
Defined.
